(** * Warm-restart learning-rate callback
    (keras_contrib/callbacks/warm_restart.py)

    A shallow embedding of [LearningRateWarmRestarter] and the properties of
    its restart schedule.

    Numbers.  The callback's fields hold Python numbers: [int] by default for
    [num_restart_epochs], [factor] and [next_restart_epochs], [float] for
    [min_lr] and [max_lr].  Python's [int] is unbounded and embeds exactly in
    the reals; [float] arithmetic and [np.cos] are taken as exact real
    arithmetic (no rounding, no NaN, no infinities).  All fields are therefore
    of type [R], [np.pi] is [PI] and [np.cos] is [cos].  The epoch index that
    Keras passes is a Python [int] and is modelled as [Z], injected with
    [IZR] where the code mixes it with the fields.

    Rounding.  The control flow, the exceptions and the order between rates
    do not depend on rounding, and whole-number periods and factors are
    computed exactly by the program; these are what the theorems over [R]
    state.  Where the exact value of line 51 matters, module [Binary64]
    evaluates that line in the program's own binary64 arithmetic.

    Effects.  The callback mutates its own fields and the optimizer's [lr]
    variable, and it can raise.  A call is a function from the world before
    the call to the world after it, together with the exception raised, if
    any: mutations made before a [raise] stay visible, as they do in Python. *)

From Stdlib Require Import Reals ZArith List Lra Lia Floats.
Import ListNotations.

#[local] Set Warnings "-inexact-float".

Open Scope R_scope.

(** ** Exceptions *)

(** The two [ValueError]s of the source are told apart by where they are
    raised; [ZeroDivisionError] is what Python's [/] raises on a zero
    divisor. *)
Inductive exn : Type :=
| ValueError_factor     (* '"factor" must be larger than 1 or equal 1' *)
| ValueError_lr         (* 'Optimizer must have a "lr" attribute.' *)
| ZeroDivisionError.

(** ** Data *)

(** The instance fields set by [__init__]. *)
Record LearningRateWarmRestarter : Type := mkRestarter {
  min_lr : R;
  max_lr : R;
  num_restart_epochs : R;
  factor : R;
  next_restart_epochs : R
}.

(** [self.model.optimizer]: [lr = None] when the optimizer has no attribute
    [lr], [Some v] when it has one and the backend variable holds [v]. *)
Record Optimizer : Type := mkOptimizer {
  lr : option R
}.

(** Everything a call can read or write. *)
Record World : Type := mkWorld {
  self : LearningRateWarmRestarter;
  optimizer : Optimizer
}.

(** ** Primitives of the host language and of Keras *)

(** [hasattr(self.model.optimizer, 'lr')] *)
Definition hasattr_lr (o : Optimizer) : bool :=
  match lr o with
  | Some _ => true
  | None => false
  end.

(** [K.set_value(self.model.optimizer.lr, v)] *)
Definition set_value (o : Optimizer) (v : R) : Optimizer :=
  {| lr := Some v |}.

(** Python's true division [a / b]. *)
Definition truediv (a b : R) : option R :=
  if Req_dec_T b 0 then None else Some (a / b).

(** ** The callback *)

(** [LearningRateWarmRestarter.__init__] (lines 28-37).  The fields are
    stored first and the check comes last; when it raises, no object is
    handed to the caller. *)
Definition __init__ (min_lr max_lr num_restart_epochs factor : R)
  : exn + LearningRateWarmRestarter :=
  let self := {| min_lr := min_lr;
                 max_lr := max_lr;
                 num_restart_epochs := num_restart_epochs;
                 factor := factor;
                 next_restart_epochs := 0 |} in
  if Rlt_dec factor 1 then inl ValueError_factor else inr self.

(** The body of [if t == self.num_restart_epochs:] (lines 47-48).  The sum
    and the product are exact here; the program's are exact for whole
    periods and factors and rounded to binary64 otherwise. *)
Definition restart (s : LearningRateWarmRestarter) : LearningRateWarmRestarter :=
  {| min_lr := min_lr s;
     max_lr := max_lr s;
     num_restart_epochs := num_restart_epochs s * factor s;
     factor := factor s;
     next_restart_epochs := next_restart_epochs s + num_restart_epochs s |}.

(** Lines 43-49: compute [t], test for the restart, and return the fields
    and the [t] that line 51 will see. *)
Definition restart_check (s : LearningRateWarmRestarter) (epoch : Z)
  : LearningRateWarmRestarter * R :=
  let t := IZR epoch - next_restart_epochs s in
  if Req_dec_T t (num_restart_epochs s) then (restart s, 0) else (s, t).

(** The right-hand side of line 51, once [t / self.num_restart_epochs] has
    produced the quotient [q], in exact arithmetic.  [Binary64.new_lr] below
    is the same line in the program's binary64 arithmetic. *)
Definition annealed (s : LearningRateWarmRestarter) (q : R) : R :=
  min_lr s + 0.5 * (max_lr s - min_lr s) * (1 + cos (q * PI)).

(** [LearningRateWarmRestarter.on_epoch_begin] (lines 39-52). *)
Definition on_epoch_begin (w : World) (epoch : Z) : World * option exn :=
  if negb (hasattr_lr (optimizer w)) then (w, Some ValueError_lr)
  else
    let '(s, t) := restart_check (self w) epoch in
    match truediv t (num_restart_epochs s) with
    | None => ({| self := s; optimizer := optimizer w |}, Some ZeroDivisionError)
    | Some q =>
        let new_lr := annealed s q in
        ({| self := s; optimizer := set_value (optimizer w) new_lr |}, None)
    end.

(** The training loop: one call per epoch index, in order.  The fields and
    the optimizer are carried from call to call whether or not a call
    raised. *)
Definition fit (w : World) (epochs : list Z) : World :=
  fold_left (fun w e => fst (on_epoch_begin w e)) epochs w.

(** The restarter of the docstring's example, bound to an optimizer whose
    learning rate is [0.01]. *)
Definition example_self : LearningRateWarmRestarter :=
  {| min_lr := 0; max_lr := 0.1; num_restart_epochs := 5; factor := 2;
     next_restart_epochs := 0 |}.

Definition example_world : World :=
  {| self := example_self; optimizer := {| lr := Some 0.01 |} |}.

(** The example restarter bound to an optimizer that has no [lr]. *)
Definition example_world_no_lr : World :=
  {| self := example_self; optimizer := {| lr := None |} |}.

(** The constraints the data model puts on the fields: [factor >= 1] and a
    positive period. *)
Definition valid (s : LearningRateWarmRestarter) : Prop :=
  1 <= factor s /\ 0 < num_restart_epochs s.

(** Line 51 in binary64, the arithmetic of Python's [float].  Decimal
    literals denote the nearest binary64 value, as they do in Python. *)
Module Binary64.

(** [np.pi] *)
Definition np_pi : float := 0x1.921fb54442d18p+1%float.

(** [t / self.num_restart_epochs * np.pi], the argument of [np.cos]. *)
Definition cos_argument (t period : float) : float :=
  (t / period * np_pi)%float.

(** The right-hand side of line 51, [c] being the value [np.cos]
    returned.  The cosine is numpy's, not the callback's; the one value
    of it used below is [np.cos(0.0) = 1.0]. *)
Definition new_lr (min_lr max_lr c : float) : float :=
  (min_lr + 0.5 * (max_lr - min_lr) * (1 + c))%float.

End Binary64.

(** The epoch indices a training run of [n] epochs passes to the callback,
    one after the other: [0, 1, ..., n - 1]. *)
Definition epoch_range (n : nat) : list Z := map Z.of_nat (seq 0 n).

(** [1 + f + ... + f ^ (j - 1)]: what [j] restarts have added to
    [next_restart_epochs], counted in first periods. *)
Fixpoint geometric (f : R) (j : nat) : R :=
  match j with
  | O => 0
  | S k => geometric f k + f ^ k
  end.


(** What holds before the call for epoch [n] of a run over [0, 1, ...] when
    the period and the factor are whole numbers: the origin and the period
    are whole numbers, the period is positive, and [n] lies between the
    origin and the boundary. *)
Definition on_schedule (f : Z) (n : nat) (w : World) : Prop :=
  exists (l : R) (o q : Z),
    lr (optimizer w) = Some l /\
    factor (self w) = IZR f /\
    next_restart_epochs (self w) = IZR o /\
    num_restart_epochs (self w) = IZR q /\
    (0 < q)%Z /\ (o <= Z.of_nat n <= o + q)%Z.

(** ** Unfolding lemmas *)

Lemma hasattr_lr_true (o : Optimizer) (l : R) :
  lr o = Some l -> hasattr_lr o = true.
Proof. unfold hasattr_lr. intros ->. reflexivity. Qed.

Lemma hasattr_lr_false (o : Optimizer) :
  lr o = None -> hasattr_lr o = false.
Proof. unfold hasattr_lr. intros ->. reflexivity. Qed.

Lemma truediv_nonzero (a b : R) : b <> 0 -> truediv a b = Some (a / b).
Proof.
  intros Hb. unfold truediv. destruct (Req_dec_T b 0) as [E | _].
  - contradiction.
  - reflexivity.
Qed.

Lemma truediv_zero (a : R) : truediv a 0 = None.
Proof.
  unfold truediv. destruct (Req_dec_T 0 0) as [_ | N].
  - reflexivity.
  - exfalso. apply N. reflexivity.
Qed.

Lemma restart_check_hit (s : LearningRateWarmRestarter) (epoch : Z) :
  IZR epoch - next_restart_epochs s = num_restart_epochs s ->
  restart_check s epoch = (restart s, 0).
Proof.
  intros H. unfold restart_check.
  destruct (Req_dec_T _ _) as [_ | N]; [reflexivity | contradiction].
Qed.

Lemma restart_check_miss (s : LearningRateWarmRestarter) (epoch : Z) :
  IZR epoch - next_restart_epochs s <> num_restart_epochs s ->
  restart_check s epoch = (s, IZR epoch - next_restart_epochs s).
Proof.
  intros H. unfold restart_check.
  destruct (Req_dec_T _ _) as [E | _]; [contradiction | reflexivity].
Qed.

(** A call on an optimizer without [lr] raises before anything is touched. *)
Lemma on_epoch_begin_no_lr (w : World) (epoch : Z) :
  lr (optimizer w) = None -> on_epoch_begin w epoch = (w, Some ValueError_lr).
Proof.
  intros H. unfold on_epoch_begin. rewrite (hasattr_lr_false _ H). reflexivity.
Qed.

(** A call that passes the attribute check and whose division is defined. *)
Lemma on_epoch_begin_ok (w : World) (epoch : Z) (l : R)
      (s : LearningRateWarmRestarter) (t : R) :
  lr (optimizer w) = Some l ->
  restart_check (self w) epoch = (s, t) ->
  num_restart_epochs s <> 0 ->
  on_epoch_begin w epoch =
    ({| self := s;
        optimizer := {| lr := Some (annealed s (t / num_restart_epochs s)) |} |},
     None).
Proof.
  intros Hl Hc Hp. unfold on_epoch_begin.
  rewrite (hasattr_lr_true _ _ Hl), Hc. cbn [negb].
  rewrite (truediv_nonzero _ _ Hp). reflexivity.
Qed.

(** A call that passes the attribute check and then divides by zero. *)
Lemma on_epoch_begin_div0 (w : World) (epoch : Z) (l : R)
      (s : LearningRateWarmRestarter) (t : R) :
  lr (optimizer w) = Some l ->
  restart_check (self w) epoch = (s, t) ->
  num_restart_epochs s = 0 ->
  on_epoch_begin w epoch =
    ({| self := s; optimizer := optimizer w |}, Some ZeroDivisionError).
Proof.
  intros Hl Hc Hp. unfold on_epoch_begin.
  rewrite (hasattr_lr_true _ _ Hl), Hc. cbn [negb].
  rewrite Hp, truediv_zero. reflexivity.
Qed.

(** Whatever happens, the fields after a call are those [restart_check]
    returns, unless the attribute check raised. *)
Lemma on_epoch_begin_self (w : World) (epoch : Z) (l : R) :
  lr (optimizer w) = Some l ->
  self (fst (on_epoch_begin w epoch)) = fst (restart_check (self w) epoch).
Proof.
  intros Hl.
  destruct (restart_check (self w) epoch) as [s t] eqn:Hc.
  destruct (Req_dec_T (num_restart_epochs s) 0) as [Hz | Hnz].
  - rewrite (on_epoch_begin_div0 w epoch l s t Hl Hc Hz). reflexivity.
  - rewrite (on_epoch_begin_ok w epoch l s t Hl Hc Hnz). reflexivity.
Qed.

Lemma annealed_at_zero (s : LearningRateWarmRestarter) :
  annealed s 0 = max_lr s.
Proof.
  unfold annealed. rewrite Rmult_0_l, cos_0. lra.
Qed.

(** The docstring's example is what [__init__] returns for its arguments,
    and it meets the data model's constraints. *)
Lemma example_self_constructed : __init__ 0 0.1 5 2 = inr example_self.
Proof.
  unfold __init__. destruct (Rlt_dec 2 1) as [Hlt | _].
  - exfalso. lra.
  - reflexivity.
Qed.

Lemma example_self_valid : valid example_self.
Proof. unfold valid. simpl. lra. Qed.

(** ** Construction *)

(** C4.  Construction raises the [ValueError] about [factor] if and only if
    [factor < 1], so it does for [factor = 0.5]; otherwise it returns an
    object whose fields are the four arguments as given and whose
    [next_restart_epochs] is [0].  Construction is a function of its
    arguments alone: it reads and writes nothing else. *)
Theorem init_raises_iff_factor_below_one :
  (forall a b p f : R, __init__ a b p f = inl ValueError_factor <-> f < 1) /\
  (forall a b p f : R,
      __init__ a b p f = inr (mkRestarter a b p f 0) <-> ~ f < 1) /\
  (forall a b p : R, __init__ a b p 0.5 = inl ValueError_factor).
Proof.
  assert (Hfail : forall a b p f : R,
             __init__ a b p f = inl ValueError_factor <-> f < 1).
  { intros a b p f. unfold __init__.
    destruct (Rlt_dec f 1) as [Hlt | Hge]; split; intros H.
    - exact Hlt.
    - reflexivity.
    - discriminate H.
    - contradiction. }
  split; [exact Hfail | split].
  - intros a b p f. unfold __init__.
    destruct (Rlt_dec f 1) as [Hlt | Hge]; split; intros H.
    + discriminate H.
    + contradiction.
    + exact Hge.
    + reflexivity.
  - intros a b p. apply Hfail. lra.
Qed.

(** What a successful construction hands back. *)
Lemma init_ok_inv (a b p f : R) (s : LearningRateWarmRestarter) :
  __init__ a b p f = inr s -> s = mkRestarter a b p f 0 /\ 1 <= f.
Proof.
  unfold __init__. destruct (Rlt_dec f 1) as [Hlt | Hge]; intros H.
  - discriminate H.
  - injection H as <-. split; [reflexivity | lra].
Qed.

(** ** The restart check *)

(** C1.  In a call that passes the attribute check, write
    [t = epoch - next_restart_epochs].  If [t] equals the period, the check
    hands on the restarted fields ([next_restart_epochs] advanced by the
    period, the period multiplied by [factor]) together with [t = 0], and
    these are the fields after the call.  If [t] differs from the period, in
    particular if it is larger, the check hands on the fields and [t]
    untouched and the fields after the call are the fields before it. *)
Theorem restart_exactly_at_boundary (w : World) (epoch : Z) (l : R) :
  lr (optimizer w) = Some l ->
  let s := self w in
  let t := IZR epoch - next_restart_epochs s in
  let s' := self (fst (on_epoch_begin w epoch)) in
  (t = num_restart_epochs s ->
     restart_check s epoch = (restart s, 0) /\
     s' = restart s /\
     next_restart_epochs s' = next_restart_epochs s + num_restart_epochs s /\
     num_restart_epochs s' = num_restart_epochs s * factor s) /\
  (t <> num_restart_epochs s -> restart_check s epoch = (s, t) /\ s' = s) /\
  (t > num_restart_epochs s -> restart_check s epoch = (s, t) /\ s' = s).
Proof.
  intros Hl s t s'.
  assert (Hs' : s' = fst (restart_check s epoch))
    by (apply on_epoch_begin_self with (l := l); exact Hl).
  assert (Hmiss : t <> num_restart_epochs s ->
                  restart_check s epoch = (s, t) /\ s' = s).
  { intros Hne. pose proof (restart_check_miss s epoch Hne) as Hc.
    split; [exact Hc | rewrite Hs', Hc; reflexivity]. }
  split; [| split].
  - intros Heq. pose proof (restart_check_hit s epoch Heq) as Hc.
    assert (E : s' = restart s) by (rewrite Hs', Hc; reflexivity).
    rewrite E. repeat split; exact Hc.
  - exact Hmiss.
  - intros Hgt. apply Hmiss. lra.
Qed.

Lemma restart_exactly_at_boundary_witness :
  self (fst (on_epoch_begin example_world 5)) = restart example_self /\
  self (fst (on_epoch_begin example_world 7)) = example_self.
Proof.
  destruct (restart_exactly_at_boundary example_world 5 0.01 eq_refl)
    as [Hhit _].
  destruct (restart_exactly_at_boundary example_world 7 0.01 eq_refl)
    as [_ [_ Hpast]].
  split.
  - apply Hhit. simpl. lra.
  - apply Hpast. simpl. lra.
Defined.

(** ** The learning rate that is written *)

(** C2.  With [next_restart_epochs = 0] and [0 <= epoch < period], a call
    that passes the attribute check raises nothing, leaves the fields as they
    are and writes
    [min_lr + 0.5 * (max_lr - min_lr) * (1 + cos (epoch / period * PI))]
    into the optimizer. *)
Theorem cosine_annealing_in_first_period (w : World) (epoch : Z) (l : R) :
  lr (optimizer w) = Some l ->
  next_restart_epochs (self w) = 0 ->
  0 <= IZR epoch < num_restart_epochs (self w) ->
  on_epoch_begin w epoch =
    ({| self := self w;
        optimizer :=
          {| lr := Some (min_lr (self w)
                         + 0.5 * (max_lr (self w) - min_lr (self w))
                           * (1 + cos (IZR epoch / num_restart_epochs (self w)
                                       * PI))) |} |},
     None).
Proof.
  intros Hl Ho [H0 Hp].
  assert (Hne : IZR epoch - next_restart_epochs (self w)
                <> num_restart_epochs (self w)) by (rewrite Ho; lra).
  assert (Hnz : num_restart_epochs (self w) <> 0) by lra.
  rewrite (on_epoch_begin_ok w epoch l _ _ Hl (restart_check_miss _ _ Hne) Hnz).
  unfold annealed. rewrite Ho, Rminus_0_r. reflexivity.
Qed.

Lemma cosine_annealing_in_first_period_witness :
  on_epoch_begin example_world 2 =
    ({| self := example_self;
        optimizer :=
          {| lr := Some (0 + 0.5 * (0.1 - 0) * (1 + cos (2 / 5 * PI))) |} |},
     None).
Proof.
  apply (cosine_annealing_in_first_period example_world 2 0.01).
  - reflexivity.
  - reflexivity.
  - simpl. lra.
Defined.

(** C3, as stated, does not hold of the rate: for [min_lr = 0.03] and
    [max_lr = 0.3] (period 5, factor 2, epoch 5) the restart sets [t = 0],
    the argument of [np.cos] is [0 / 10 * np.pi = 0.0], its value is [1.0],
    and line 51 evaluates in binary64 to [0.30000000000000004], which is not
    [max_lr] and lies above it. *)
Lemma first_restart_rate_is_not_max_lr :
  Binary64.cos_argument 0 10 = 0%float /\
  Binary64.new_lr 0.03 0.3 1 = 0.30000000000000004%float /\
  PrimFloat.eqb (Binary64.new_lr 0.03 0.3 1) 0.3 = false /\
  PrimFloat.ltb 0.3 (Binary64.new_lr 0.03 0.3 1) = true.
Proof. repeat split; vm_compute; reflexivity. Qed.

(** C3, amended.  Take a freshly constructed restarter bound to an
    optimizer that has an [lr], and call [on_epoch_begin] with [epoch] equal
    to its period [p], where [p] is not zero.  The call raises nothing;
    after it [next_restart_epochs] is [p] and the period is [p * factor];
    and the rate written is line 51 at [t = 0], that is
    [min_lr + 0.5 * (max_lr - min_lr) * (1 + cos (0 / (p * factor) * PI))].
    In exact arithmetic this value is [max_lr]; in binary64 it is exactly
    [max_lr] for the default [min_lr = 0], [max_lr = 0.1], and it is not
    for [min_lr = 0.03], [max_lr = 0.3]. *)
Theorem first_restart_resets_schedule
        (a b p f : R) (s : LearningRateWarmRestarter) (o : Optimizer)
        (l : R) (epoch : Z) :
  __init__ a b p f = inr s ->
  lr o = Some l ->
  IZR epoch = p ->
  p <> 0 ->
  let r := on_epoch_begin {| self := s; optimizer := o |} epoch in
  snd r = None /\
  next_restart_epochs (self (fst r)) = p /\
  num_restart_epochs (self (fst r)) = p * f /\
  lr (optimizer (fst r))
  = Some (a + 0.5 * (b - a) * (1 + cos (0 / (p * f) * PI))) /\
  a + 0.5 * (b - a) * (1 + cos (0 / (p * f) * PI)) = b /\
  Binary64.new_lr 0 0.1 1 = 0.1%float /\
  PrimFloat.eqb (Binary64.new_lr 0.03 0.3 1) 0.3 = false.
Proof.
  intros Hi Hl He Hp r.
  destruct (init_ok_inv a b p f s Hi) as [-> Hf].
  set (s0 := mkRestarter a b p f 0) in *.
  assert (Hhit : restart_check s0 epoch = (restart s0, 0)).
  { apply restart_check_hit. simpl. lra. }
  assert (Hnz : num_restart_epochs (restart s0) <> 0).
  { simpl. intros Hz. apply Rmult_integral in Hz. destruct Hz; lra. }
  unfold r.
  rewrite (on_epoch_begin_ok {| self := s0; optimizer := o |} epoch l
             (restart s0) 0 Hl Hhit Hnz).
  simpl. repeat split.
  - lra.
  - unfold Rdiv. rewrite Rmult_0_l, Rmult_0_l, cos_0. lra.
Qed.

Lemma first_restart_resets_schedule_witness :
  let r := on_epoch_begin example_world 5 in
  snd r = None /\
  next_restart_epochs (self (fst r)) = 5 /\
  num_restart_epochs (self (fst r)) = 5 * 2 /\
  lr (optimizer (fst r))
  = Some (0 + 0.5 * (0.1 - 0) * (1 + cos (0 / (5 * 2) * PI))) /\
  0 + 0.5 * (0.1 - 0) * (1 + cos (0 / (5 * 2) * PI)) = 0.1 /\
  Binary64.new_lr 0 0.1 1 = 0.1%float /\
  PrimFloat.eqb (Binary64.new_lr 0.03 0.3 1) 0.3 = false.
Proof.
  apply (first_restart_resets_schedule 0 0.1 5 2 example_self
           {| lr := Some 0.01 |} 0.01 5 example_self_constructed
           eq_refl eq_refl).
  lra.
Defined.

(** ** Invariants of the fields *)

Lemma valid_restart (s : LearningRateWarmRestarter) :
  valid s -> valid (restart s).
Proof.
  unfold valid. simpl. intros [Hf Hp]. split; [exact Hf | nra].
Qed.

Lemma valid_restart_check (s : LearningRateWarmRestarter) (epoch : Z) :
  valid s -> valid (fst (restart_check s epoch)).
Proof.
  intros Hv. unfold restart_check. destruct (Req_dec_T _ _); simpl.
  - apply valid_restart. exact Hv.
  - exact Hv.
Qed.

Lemma origin_restart_check (s : LearningRateWarmRestarter) (epoch : Z) :
  valid s ->
  next_restart_epochs s <= next_restart_epochs (fst (restart_check s epoch)).
Proof.
  intros [_ Hp]. unfold restart_check. destruct (Req_dec_T _ _); simpl; lra.
Qed.

(** One call keeps the fields valid and does not move the origin back. *)
Lemma on_epoch_begin_valid (w : World) (epoch : Z) :
  valid (self w) ->
  valid (self (fst (on_epoch_begin w epoch))) /\
  next_restart_epochs (self w)
  <= next_restart_epochs (self (fst (on_epoch_begin w epoch))).
Proof.
  intros Hv. destruct (lr (optimizer w)) as [l |] eqn:Hl.
  - rewrite (on_epoch_begin_self w epoch l Hl). split.
    + apply valid_restart_check. exact Hv.
    + apply origin_restart_check. exact Hv.
  - rewrite (on_epoch_begin_no_lr w epoch Hl). simpl. split; [exact Hv | lra].
Qed.

Lemma fit_app (w : World) (pre post : list Z) :
  fit w (pre ++ post) = fit (fit w pre) post.
Proof. unfold fit. apply fold_left_app. Qed.

Lemma fit_cons (w : World) (e : Z) (epochs : list Z) :
  fit w (e :: epochs) = fit (fst (on_epoch_begin w e)) epochs.
Proof. reflexivity. Qed.

(** A whole run keeps the fields valid and does not move the origin back. *)
Lemma fit_valid (epochs : list Z) :
  forall w : World,
    valid (self w) ->
    valid (self (fit w epochs)) /\
    next_restart_epochs (self w) <= next_restart_epochs (self (fit w epochs)).
Proof.
  induction epochs as [| e epochs IH]; intros w Hv.
  - simpl. split; [exact Hv | lra].
  - rewrite fit_cons.
    destruct (on_epoch_begin_valid w e Hv) as [Hv1 Ho1].
    destruct (IH _ Hv1) as [Hv2 Ho2].
    split; [exact Hv2 | lra].
Qed.

(** With valid fields the division of line 51 has a non-zero divisor, so a
    call raises only when the attribute check does. *)
Lemma on_epoch_begin_raises_inv (w : World) (epoch : Z) (e : exn) :
  valid (self w) ->
  snd (on_epoch_begin w epoch) = Some e ->
  e = ValueError_lr /\ lr (optimizer w) = None.
Proof.
  intros Hv He. destruct (lr (optimizer w)) as [l |] eqn:Hl.
  - exfalso.
    destruct (restart_check (self w) epoch) as [s t] eqn:Hc.
    assert (Hs : valid s).
    { replace s with (fst (restart_check (self w) epoch))
        by (rewrite Hc; reflexivity).
      apply valid_restart_check. exact Hv. }
    assert (Hnz : num_restart_epochs s <> 0) by (destruct Hs; lra).
    rewrite (on_epoch_begin_ok w epoch l s t Hl Hc Hnz) in He.
    discriminate He.
  - rewrite (on_epoch_begin_no_lr w epoch Hl) in He. simpl in He.
    injection He as <-. split; reflexivity.
Qed.

(** ** Errors of a call *)

(** A non-zero period stays non-zero when the factor is not zero. *)
Lemma on_epoch_begin_nonzero (w : World) (epoch : Z) :
  factor (self w) <> 0 ->
  num_restart_epochs (self w) <> 0 ->
  factor (self (fst (on_epoch_begin w epoch))) <> 0 /\
  num_restart_epochs (self (fst (on_epoch_begin w epoch))) <> 0.
Proof.
  intros Hf Hp. destruct (lr (optimizer w)) as [l |] eqn:Hl.
  - rewrite (on_epoch_begin_self w epoch l Hl). unfold restart_check.
    destruct (Req_dec_T _ _); simpl; split; try assumption.
    intros Hz. apply Rmult_integral in Hz. destruct Hz; contradiction.
  - rewrite (on_epoch_begin_no_lr w epoch Hl). simpl. split; assumption.
Qed.

Lemma fit_nonzero (epochs : list Z) :
  forall w : World,
    factor (self w) <> 0 ->
    num_restart_epochs (self w) <> 0 ->
    factor (self (fit w epochs)) <> 0 /\
    num_restart_epochs (self (fit w epochs)) <> 0.
Proof.
  induction epochs as [| e epochs IH]; intros w Hf Hp.
  - simpl. split; assumption.
  - rewrite fit_cons.
    destruct (on_epoch_begin_nonzero w e Hf Hp) as [Hf1 Hp1].
    apply IH; assumption.
Qed.

(** With a non-zero factor and a non-zero period the division of line 51
    is defined, so a call raises only when the attribute check does. *)
Lemma on_epoch_begin_raises_nonzero (w : World) (epoch : Z) (e : exn) :
  factor (self w) <> 0 ->
  num_restart_epochs (self w) <> 0 ->
  snd (on_epoch_begin w epoch) = Some e ->
  e = ValueError_lr /\ lr (optimizer w) = None.
Proof.
  intros Hf Hp He. destruct (lr (optimizer w)) as [l |] eqn:Hl.
  - exfalso.
    destruct (restart_check (self w) epoch) as [s t] eqn:Hc.
    assert (Hnz : num_restart_epochs s <> 0).
    { destruct (on_epoch_begin_nonzero w epoch Hf Hp) as [_ Hn].
      rewrite (on_epoch_begin_self w epoch l Hl), Hc in Hn. exact Hn. }
    rewrite (on_epoch_begin_ok w epoch l s t Hl Hc Hnz) in He.
    discriminate He.
  - rewrite (on_epoch_begin_no_lr w epoch Hl) in He. simpl in He.
    injection He as <-. split; reflexivity.
Qed.

(** C5, as stated, does not hold: construction accepts a period of zero,
    and then a call on an optimizer that has an [lr] raises
    [ZeroDivisionError], an error other than the two the claim allows. *)
Lemma zero_period_raises_another_error :
  __init__ 0 0.1 0 2 = inr (mkRestarter 0 0.1 0 2 0) /\
  snd (on_epoch_begin {| self := mkRestarter 0 0.1 0 2 0;
                         optimizer := {| lr := Some 0.01 |} |} 3)
  = Some ZeroDivisionError.
Proof.
  split.
  - unfold __init__. destruct (Rlt_dec 2 1) as [Hlt | _].
    + exfalso. lra.
    + reflexivity.
  - set (w := {| self := mkRestarter 0 0.1 0 2 0;
                 optimizer := {| lr := Some 0.01 |} |}).
    assert (Hc : restart_check (self w) 3 = (self w, IZR 3 - 0)).
    { apply restart_check_miss. simpl. lra. }
    rewrite (on_epoch_begin_div0 w 3 0.01 _ _ eq_refl Hc eq_refl).
    reflexivity.
Qed.

(** C5, amended.  Take a restarter with [factor >= 1], as construction
    leaves it, and a period that is not zero, and let any number of calls go
    by.  If the optimizer then has no [lr], the next call (the first one
    when nothing went by) raises the [ValueError] about [lr] as its result;
    and whatever a call raises is that [ValueError], raised because the
    optimizer has no [lr]: no other exception comes out of
    [on_epoch_begin]. *)
Theorem only_missing_lr_is_raised (w0 : World) (prior : list Z) (epoch : Z) :
  1 <= factor (self w0) ->
  num_restart_epochs (self w0) <> 0 ->
  let w := fit w0 prior in
  (lr (optimizer w) = None ->
     snd (on_epoch_begin w epoch) = Some ValueError_lr) /\
  (forall e : exn,
      snd (on_epoch_begin w epoch) = Some e ->
      e = ValueError_lr /\ lr (optimizer w) = None).
Proof.
  intros Hf Hp w. split.
  - intros Hl. rewrite (on_epoch_begin_no_lr w epoch Hl). reflexivity.
  - intros e He.
    assert (Hf0 : factor (self w0) <> 0) by lra.
    destruct (fit_nonzero prior w0 Hf0 Hp) as [Hf' Hp'].
    apply (on_epoch_begin_raises_nonzero w epoch e Hf' Hp' He).
Qed.

Lemma only_missing_lr_is_raised_witness :
  snd (on_epoch_begin (fit example_world_no_lr []) 0) = Some ValueError_lr.
Proof.
  assert (Hf : 1 <= factor (self example_world_no_lr)) by (simpl; lra).
  assert (Hp : num_restart_epochs (self example_world_no_lr) <> 0)
    by (simpl; lra).
  destruct (only_missing_lr_is_raised example_world_no_lr [] 0 Hf Hp)
    as [Hraise _].
  apply Hraise. reflexivity.
Defined.

(** C10.  At any point of a run, a call on an optimizer without [lr]
    raises the [ValueError] about [lr] and returns the world as it found it;
    and a call that raised this error has changed neither the fields of the
    restarter nor the optimizer. *)
Theorem missing_lr_changes_nothing (w0 : World) (prior : list Z) (epoch : Z) :
  let w := fit w0 prior in
  (lr (optimizer w) = None ->
     on_epoch_begin w epoch = (w, Some ValueError_lr)) /\
  (snd (on_epoch_begin w epoch) = Some ValueError_lr ->
     lr (optimizer w) = None /\ fst (on_epoch_begin w epoch) = w).
Proof.
  intros w. split.
  - apply on_epoch_begin_no_lr.
  - intros He. destruct (lr (optimizer w)) as [l |] eqn:Hl.
    + exfalso.
      destruct (restart_check (self w) epoch) as [s t] eqn:Hc.
      destruct (Req_dec_T (num_restart_epochs s) 0) as [Hz | Hnz].
      * rewrite (on_epoch_begin_div0 w epoch l s t Hl Hc Hz) in He.
        discriminate He.
      * rewrite (on_epoch_begin_ok w epoch l s t Hl Hc Hnz) in He.
        discriminate He.
    + rewrite (on_epoch_begin_no_lr w epoch Hl). split; reflexivity.
Qed.

Lemma missing_lr_changes_nothing_witness :
  on_epoch_begin (fit example_world_no_lr [0%Z; 1%Z]) 2 =
    (example_world_no_lr, Some ValueError_lr).
Proof.
  destruct (missing_lr_changes_nothing example_world_no_lr [0%Z; 1%Z] 2)
    as [Hraise _].
  rewrite Hraise; reflexivity.
Defined.

(** ** Decay inside a period *)

(** The formula of line 51 does not increase while the quotient
    [t / period] runs from [0] to [1], as long as [min_lr <= max_lr]. *)
Lemma annealed_decreasing (s : LearningRateWarmRestarter) (q1 q2 : R) :
  min_lr s <= max_lr s ->
  0 <= q1 -> q1 <= q2 -> q2 <= 1 ->
  annealed s q2 <= annealed s q1.
Proof.
  intros Hm H0 H12 H1. unfold annealed.
  pose proof PI_RGT_0 as Hpi.
  assert (Hcos : cos (q2 * PI) <= cos (q1 * PI)).
  { apply cos_decr_1; nra. }
  nra.
Qed.

Lemma quotient_in_period (t p : R) :
  0 < p -> 0 <= t -> t < p -> 0 <= t / p /\ t / p < 1.
Proof.
  intros Hp H0 Ht. split.
  - apply Rmult_le_pos; [exact H0 | left; apply Rinv_0_lt_compat; exact Hp].
  - apply (Rmult_lt_reg_r p); [exact Hp |].
    unfold Rdiv. rewrite Rmult_assoc, Rinv_l by lra. lra.
Qed.

Lemma quotient_monotone (t1 t2 p : R) :
  0 < p -> t1 <= t2 -> t1 / p <= t2 / p.
Proof.
  intros Hp H. unfold Rdiv. apply Rmult_le_compat_r; [| exact H].
  left. apply Rinv_0_lt_compat. exact Hp.
Qed.

(** C6, as stated, does not hold: construction accepts [min_lr = 0.5] with
    [max_lr = 0.1] (period 5, factor 2), and then, with period and origin
    fixed, the rate written at epoch 1 is above the rate written at
    epoch 0. *)
Lemma rate_increases_when_bounds_are_swapped :
  let s := mkRestarter 0.5 0.1 5 2 0 in
  let o := {| lr := Some 0.01 |} in
  __init__ 0.5 0.1 5 2 = inr s /\
  exists v0 v1 : R,
    on_epoch_begin {| self := s; optimizer := o |} 0
      = ({| self := s; optimizer := {| lr := Some v0 |} |}, None) /\
    on_epoch_begin {| self := s; optimizer := o |} 1
      = ({| self := s; optimizer := {| lr := Some v1 |} |}, None) /\
    v0 < v1.
Proof.
  intros s o. split.
  - unfold __init__. destruct (Rlt_dec 2 1) as [Hlt | _].
    + exfalso. lra.
    + reflexivity.
  - exists (annealed s ((IZR 0 - 0) / 5)), (annealed s ((IZR 1 - 0) / 5)).
    split; [| split].
    + apply (on_epoch_begin_ok {| self := s; optimizer := o |} 0 0.01 s
               (IZR 0 - 0)).
      * reflexivity.
      * apply restart_check_miss. simpl. lra.
      * simpl. lra.
    + apply (on_epoch_begin_ok {| self := s; optimizer := o |} 1 0.01 s
               (IZR 1 - 0)).
      * reflexivity.
      * apply restart_check_miss. simpl. lra.
      * simpl. lra.
    + unfold annealed. simpl.
      replace ((0 - 0) / 5 * PI) with 0 by lra.
      replace ((1 - 0) / 5 * PI) with (PI / 5) by lra.
      rewrite cos_0.
      pose proof PI_RGT_0 as Hpi.
      assert (Hcos : cos (PI / 5) < cos 0)
        by (apply cos_decreasing_1; lra).
      rewrite cos_0 in Hcos. lra.
Qed.

(** C6, amended.  Fix the fields of a restarter with [min_lr <= max_lr],
    and take two epochs [e1 <= e2] of the current period, that is, from
    [next_restart_epochs] up to but excluding
    [next_restart_epochs + period] (where the restart changes the fields).
    Both calls succeed, keep the fields, and the learning rate written at
    [e2] is at most the one written at [e1]. *)
Theorem decay_within_period
        (s : LearningRateWarmRestarter) (o1 o2 : Optimizer) (l1 l2 : R)
        (e1 e2 : Z) :
  min_lr s <= max_lr s ->
  lr o1 = Some l1 ->
  lr o2 = Some l2 ->
  next_restart_epochs s <= IZR e1 ->
  (e1 <= e2)%Z ->
  IZR e2 < next_restart_epochs s + num_restart_epochs s ->
  exists v1 v2 : R,
    on_epoch_begin {| self := s; optimizer := o1 |} e1
      = ({| self := s; optimizer := {| lr := Some v1 |} |}, None) /\
    on_epoch_begin {| self := s; optimizer := o2 |} e2
      = ({| self := s; optimizer := {| lr := Some v2 |} |}, None) /\
    v2 <= v1.
Proof.
  intros Hm Hl1 Hl2 Hlo H12 Hhi.
  apply IZR_le in H12.
  assert (Hp : 0 < num_restart_epochs s) by lra.
  set (t1 := IZR e1 - next_restart_epochs s).
  set (t2 := IZR e2 - next_restart_epochs s).
  assert (Ht1 : 0 <= t1 /\ t1 < num_restart_epochs s) by (unfold t1; lra).
  assert (Ht2 : 0 <= t2 /\ t2 < num_restart_epochs s) by (unfold t2; lra).
  assert (Hnz : num_restart_epochs s <> 0) by lra.
  assert (Hc1 : restart_check s e1 = (s, t1))
    by (apply restart_check_miss; fold t1; lra).
  assert (Hc2 : restart_check s e2 = (s, t2))
    by (apply restart_check_miss; fold t2; lra).
  exists (annealed s (t1 / num_restart_epochs s)),
         (annealed s (t2 / num_restart_epochs s)).
  split; [| split].
  - apply (on_epoch_begin_ok {| self := s; optimizer := o1 |} e1 l1 s t1);
      assumption.
  - apply (on_epoch_begin_ok {| self := s; optimizer := o2 |} e2 l2 s t2);
      assumption.
  - destruct (quotient_in_period t1 _ Hp (proj1 Ht1) (proj2 Ht1)) as [Hq1 _].
    destruct (quotient_in_period t2 _ Hp (proj1 Ht2) (proj2 Ht2)) as [_ Hq2].
    apply annealed_decreasing; try assumption.
    + apply quotient_monotone; [exact Hp | unfold t1, t2; lra].
    + lra.
Qed.

Lemma decay_within_period_witness :
  exists v1 v2 : R,
    on_epoch_begin example_world 1
      = ({| self := example_self; optimizer := {| lr := Some v1 |} |}, None) /\
    on_epoch_begin example_world 3
      = ({| self := example_self; optimizer := {| lr := Some v2 |} |}, None) /\
    v2 <= v1.
Proof.
  apply (decay_within_period example_self {| lr := Some 0.01 |}
           {| lr := Some 0.01 |} 0.01 0.01 1 3).
  - simpl. lra.
  - reflexivity.
  - reflexivity.
  - simpl. lra.
  - lia.
  - simpl. lra.
Defined.

(** ** Lifetime of the object *)

(** With a non-negative factor and period, one call keeps both
    non-negative and does not move the origin back. *)
Lemma on_epoch_begin_nonneg (w : World) (epoch : Z) :
  0 <= factor (self w) ->
  0 <= num_restart_epochs (self w) ->
  0 <= factor (self (fst (on_epoch_begin w epoch))) /\
  0 <= num_restart_epochs (self (fst (on_epoch_begin w epoch))) /\
  next_restart_epochs (self w)
  <= next_restart_epochs (self (fst (on_epoch_begin w epoch))).
Proof.
  intros Hf Hp. destruct (lr (optimizer w)) as [l |] eqn:Hl.
  - rewrite (on_epoch_begin_self w epoch l Hl). unfold restart_check.
    destruct (Req_dec_T _ _); simpl; repeat split; try assumption; try lra.
    apply Rmult_le_pos; assumption.
  - rewrite (on_epoch_begin_no_lr w epoch Hl). simpl.
    repeat split; try assumption. lra.
Qed.

Lemma fit_nonneg (epochs : list Z) :
  forall w : World,
    0 <= factor (self w) ->
    0 <= num_restart_epochs (self w) ->
    0 <= factor (self (fit w epochs)) /\
    0 <= num_restart_epochs (self (fit w epochs)) /\
    next_restart_epochs (self w) <= next_restart_epochs (self (fit w epochs)).
Proof.
  induction epochs as [| e epochs IH]; intros w Hf Hp.
  - simpl. repeat split; try assumption. lra.
  - rewrite fit_cons.
    destruct (on_epoch_begin_nonneg w e Hf Hp) as [Hf1 [Hp1 Ho1]].
    destruct (IH _ Hf1 Hp1) as [Hf2 [Hp2 Ho2]].
    repeat split; try assumption. lra.
Qed.

(** C7, as stated, does not hold: construction accepts a negative period,
    and then the call whose epoch hits the boundary moves
    [next_restart_epochs] back, here from [0] to [-5]. *)
Lemma negative_period_moves_origin_back :
  let w := {| self := mkRestarter 0 0.1 (-5) 2 0;
              optimizer := {| lr := Some 0.01 |} |} in
  __init__ 0 0.1 (-5) 2 = inr (self w) /\
  next_restart_epochs (self w) = 0 /\
  next_restart_epochs (self (fst (on_epoch_begin w (-5)))) = -5.
Proof.
  intros w. split; [| split].
  - unfold __init__. destruct (Rlt_dec 2 1) as [Hlt | _].
    + exfalso. lra.
    + reflexivity.
  - reflexivity.
  - rewrite (on_epoch_begin_self w (-5) 0.01 eq_refl).
    assert (Hc : restart_check (self w) (-5) = (restart (self w), 0)).
    { apply restart_check_hit. simpl. lra. }
    rewrite Hc. simpl. lra.
Qed.

(** C7, amended.  For a restarter whose factor and period are not
    negative ([factor >= 1] after construction, and a period [>= 0]),
    [next_restart_epochs] never decreases: not across a single call, and not
    between any two points of any run of calls. *)
Theorem restart_origin_never_decreases
        (w : World) (pre post : list Z) (epoch : Z) :
  0 <= factor (self w) ->
  0 <= num_restart_epochs (self w) ->
  next_restart_epochs (self w)
  <= next_restart_epochs (self (fst (on_epoch_begin w epoch))) /\
  next_restart_epochs (self (fit w pre))
  <= next_restart_epochs (self (fit w (pre ++ post))).
Proof.
  intros Hf Hp. split.
  - apply on_epoch_begin_nonneg; assumption.
  - rewrite fit_app.
    destruct (fit_nonneg pre w Hf Hp) as [Hf1 [Hp1 _]].
    apply fit_nonneg; assumption.
Qed.

Lemma restart_origin_never_decreases_witness :
  next_restart_epochs (self example_world)
  <= next_restart_epochs (self (fst (on_epoch_begin example_world 5))) /\
  next_restart_epochs (self (fit example_world [0%Z; 1%Z]))
  <= next_restart_epochs
       (self (fit example_world ([0%Z; 1%Z] ++ [2%Z; 3%Z; 4%Z; 5%Z]))).
Proof.
  apply (restart_origin_never_decreases example_world [0%Z; 1%Z]
           [2%Z; 3%Z; 4%Z; 5%Z] 5).
  - simpl. lra.
  - simpl. lra.
Defined.

(** C8.  A restarter constructed with a positive period (construction
    having checked [factor >= 1]) keeps a strictly positive
    [num_restart_epochs] after every run of calls, and no call ever raises
    [ZeroDivisionError]: the divisor of line 51 is never zero. *)
Theorem period_stays_positive
        (a b p f : R) (s : LearningRateWarmRestarter) (o : Optimizer)
        (epochs : list Z) (epoch : Z) :
  __init__ a b p f = inr s ->
  0 < p ->
  let w := fit {| self := s; optimizer := o |} epochs in
  0 < num_restart_epochs (self w) /\
  0 < num_restart_epochs (self (fst (on_epoch_begin w epoch))) /\
  snd (on_epoch_begin w epoch) <> Some ZeroDivisionError.
Proof.
  intros Hi Hp w.
  destruct (init_ok_inv a b p f s Hi) as [-> Hf].
  assert (Hv : valid (self w)).
  { apply fit_valid. unfold valid. simpl. split; assumption. }
  split; [exact (proj2 Hv) | split].
  - destruct (on_epoch_begin_valid w epoch Hv) as [[_ Hpos] _]. exact Hpos.
  - intros He.
    destruct (on_epoch_begin_raises_inv w epoch _ Hv He) as [Hbad _].
    discriminate Hbad.
Qed.

Lemma period_stays_positive_witness :
  let w := fit example_world [0%Z; 1%Z; 2%Z; 3%Z; 4%Z; 5%Z] in
  0 < num_restart_epochs (self w) /\
  0 < num_restart_epochs (self (fst (on_epoch_begin w 6))) /\
  snd (on_epoch_begin w 6) <> Some ZeroDivisionError.
Proof.
  apply (period_stays_positive 0 0.1 5 2 example_self {| lr := Some 0.01 |}
           [0%Z; 1%Z; 2%Z; 3%Z; 4%Z; 5%Z] 6).
  - exact example_self_constructed.
  - lra.
Defined.

(** ** Calling twice with the same epoch *)

(** Restarting a restarter whose next period is zero changes nothing. *)
Lemma restart_fixed_when_zero (s : LearningRateWarmRestarter) :
  num_restart_epochs (restart s) = 0 -> restart (restart s) = restart s.
Proof.
  destruct s as [a b p f o]. unfold restart. simpl. intros Hz.
  rewrite Hz. f_equal; lra.
Qed.

(** A second call with the same epoch repeats the outcome of the first and
    leaves the world as the first call left it. *)
Lemma on_epoch_begin_twice (w : World) (epoch : Z) :
  on_epoch_begin (fst (on_epoch_begin w epoch)) epoch = on_epoch_begin w epoch.
Proof.
  destruct w as [s0 o]. destruct (lr o) as [l |] eqn:Hl.
  2:{ rewrite (on_epoch_begin_no_lr (mkWorld s0 o) epoch Hl). cbn [fst].
      apply on_epoch_begin_no_lr. exact Hl. }
  destruct (Req_dec_T (IZR epoch - next_restart_epochs s0)
                      (num_restart_epochs s0)) as [Hhit | Hmiss].
  - (* the first call restarts *)
    pose proof (restart_check_hit s0 epoch Hhit) as Hc.
    assert (Ht' : IZR epoch - next_restart_epochs (restart s0) = 0)
      by (simpl; lra).
    destruct (Req_dec_T (num_restart_epochs (restart s0)) 0) as [Hz | Hnz].
    + rewrite (on_epoch_begin_div0 (mkWorld s0 o) epoch l _ _ Hl Hc Hz).
      cbn [fst].
      assert (Hc2 : restart_check (restart s0) epoch = (restart s0, 0)).
      { rewrite <- (restart_fixed_when_zero s0 Hz) at 2.
        apply restart_check_hit. rewrite Ht', Hz. reflexivity. }
      apply (on_epoch_begin_div0 (mkWorld (restart s0) o) epoch l _ _ Hl Hc2 Hz).
    + rewrite (on_epoch_begin_ok (mkWorld s0 o) epoch l _ _ Hl Hc Hnz).
      cbn [fst].
      assert (Hc2 : restart_check (restart s0) epoch = (restart s0, 0)).
      { rewrite restart_check_miss; rewrite Ht'.
        - reflexivity.
        - intros E. apply Hnz. symmetry. exact E. }
      apply on_epoch_begin_ok
        with (l := annealed (restart s0) (0 / num_restart_epochs (restart s0)));
        [reflexivity | exact Hc2 | exact Hnz].
  - (* the first call does not restart *)
    pose proof (restart_check_miss s0 epoch Hmiss) as Hc.
    destruct (Req_dec_T (num_restart_epochs s0) 0) as [Hz | Hnz].
    + rewrite (on_epoch_begin_div0 (mkWorld s0 o) epoch l _ _ Hl Hc Hz).
      cbn [fst].
      apply (on_epoch_begin_div0 (mkWorld s0 o) epoch l _ _ Hl Hc Hz).
    + rewrite (on_epoch_begin_ok (mkWorld s0 o) epoch l _ _ Hl Hc Hnz).
      cbn [fst].
      apply on_epoch_begin_ok
        with (l := annealed s0 ((IZR epoch - next_restart_epochs s0)
                                / num_restart_epochs s0));
        [reflexivity | exact Hc | exact Hnz].
Qed.

(** The docstring's example at its first restart boundary, epoch 5: the
    call restarts and so changes the fields. *)
Lemma example_boundary_changes_fields :
  self (fst (on_epoch_begin example_world 5)) <> self example_world.
Proof.
  rewrite (on_epoch_begin_self example_world 5 0.01 eq_refl).
  assert (Hc : restart_check (self example_world) 5
               = (restart example_self, 0)).
  { apply restart_check_hit. simpl. lra. }
  rewrite Hc. simpl. intros E.
  apply (f_equal next_restart_epochs) in E. simpl in E. lra.
Qed.

(** The same example traced: at epoch 5 the first call restarts (origin 5,
    period 10) and writes [max_lr = 0.1]; the second call at epoch 5 finds
    [t = 0], does not restart and writes [0.1] again. *)
Lemma example_boundary_called_twice :
  let after := {| self := mkRestarter 0 0.1 10 2 5;
                  optimizer := {| lr := Some 0.1 |} |} in
  on_epoch_begin example_world 5 = (after, None) /\
  on_epoch_begin after 5 = (after, None).
Proof.
  intros after.
  assert (Hr : restart example_self = mkRestarter 0 0.1 10 2 5).
  { unfold restart, example_self. simpl. f_equal; lra. }
  assert (Hfirst : on_epoch_begin example_world 5 = (after, None)).
  { assert (Hc : restart_check (self example_world) 5
                 = (mkRestarter 0 0.1 10 2 5, 0)).
    { rewrite <- Hr. apply restart_check_hit. simpl. lra. }
    rewrite (on_epoch_begin_ok example_world 5 0.01 _ _ eq_refl Hc)
      by (simpl; lra).
    unfold after, Rdiv. rewrite Rmult_0_l, annealed_at_zero. reflexivity. }
  split; [exact Hfirst |].
  pose proof (on_epoch_begin_twice example_world 5) as Hsecond.
  rewrite Hfirst in Hsecond. exact Hsecond.
Qed.

(** C9, as stated, does not hold: there are no world and epoch for which
    the second of two successive calls with that epoch writes a different
    learning rate and leaves different fields than the first. *)
Lemma second_call_never_differs :
  ~ exists (w : World) (epoch : Z),
      let first := on_epoch_begin w epoch in
      let second := on_epoch_begin (fst first) epoch in
      lr (optimizer (fst second)) <> lr (optimizer (fst first)) /\
      self (fst second) <> self (fst first).
Proof.
  intros [w [epoch [Hlr _]]]. apply Hlr.
  rewrite on_epoch_begin_twice. reflexivity.
Qed.

(** C9, amended.  Calling [on_epoch_begin] twice in succession with the
    same epoch gives, the second time, the result of the first: the same
    exception or none, and the world (fields and optimizer) exactly as the
    first call left it.  At a restart boundary with a non-zero period the
    first call changes the fields, as at epoch 5 of the docstring's example,
    so the second call starts from the advanced fields; it changes nothing
    further. *)
Theorem second_call_repeats_first :
  (forall (w : World) (epoch : Z),
      on_epoch_begin (fst (on_epoch_begin w epoch)) epoch
      = on_epoch_begin w epoch) /\
  (forall (w : World) (epoch : Z) (l : R),
      lr (optimizer w) = Some l ->
      IZR epoch - next_restart_epochs (self w) = num_restart_epochs (self w) ->
      num_restart_epochs (self w) <> 0 ->
      self (fst (on_epoch_begin w epoch)) <> self w /\
      fst (on_epoch_begin (fst (on_epoch_begin w epoch)) epoch)
      = fst (on_epoch_begin w epoch)) /\
  self (fst (on_epoch_begin example_world 5)) <> self example_world.
Proof.
  split; [exact on_epoch_begin_twice | split].
  - intros w epoch l Hl Hhit Hp. split.
    + rewrite (on_epoch_begin_self w epoch l Hl).
      rewrite (restart_check_hit _ _ Hhit). simpl. intros E.
      apply (f_equal next_restart_epochs) in E. simpl in E. lra.
    + rewrite on_epoch_begin_twice. reflexivity.
  - exact example_boundary_changes_fields.
Qed.

(** * Further properties of the schedule *)

(** ** What one call does to the world *)

(** The fields after a call are the old ones or the restarted ones. *)
Lemma on_epoch_begin_self_cases (w : World) (epoch : Z) :
  self (fst (on_epoch_begin w epoch)) = self w \/
  self (fst (on_epoch_begin w epoch)) = restart (self w).
Proof.
  destruct (lr (optimizer w)) as [l |] eqn:Hl.
  - rewrite (on_epoch_begin_self w epoch l Hl). unfold restart_check.
    destruct (Req_dec_T _ _); simpl; [right | left]; reflexivity.
  - rewrite (on_epoch_begin_no_lr w epoch Hl). left. reflexivity.
Qed.

(** One call keeps [min_lr], [max_lr] and [factor]. *)
Lemma on_epoch_begin_config (w : World) (epoch : Z) :
  let s' := self (fst (on_epoch_begin w epoch)) in
  min_lr s' = min_lr (self w) /\ max_lr s' = max_lr (self w) /\
  factor s' = factor (self w).
Proof.
  cbv zeta.
  destruct (on_epoch_begin_self_cases w epoch) as [-> | ->]; simpl;
    repeat split.
Qed.

Lemma fit_config (epochs : list Z) :
  forall w : World,
    min_lr (self (fit w epochs)) = min_lr (self w) /\
    max_lr (self (fit w epochs)) = max_lr (self w) /\
    factor (self (fit w epochs)) = factor (self w).
Proof.
  induction epochs as [| e epochs IH]; intros w.
  - simpl. repeat split.
  - rewrite fit_cons.
    destruct (IH (fst (on_epoch_begin w e))) as [H1 [H2 H3]].
    destruct (on_epoch_begin_config w e) as [G1 [G2 G3]].
    rewrite H1, H2, H3. repeat split; assumption.
Qed.

(** X2.  No run of calls, whether they succeed or raise, changes the
    configuration: [min_lr], [max_lr] and [factor] stay what they were; only
    [num_restart_epochs] and [next_restart_epochs] ever move. *)
Theorem configuration_is_never_written (w : World) (epochs : list Z) :
  min_lr (self (fit w epochs)) = min_lr (self w) /\
  max_lr (self (fit w epochs)) = max_lr (self w) /\
  factor (self (fit w epochs)) = factor (self w).
Proof. apply fit_config. Qed.

(** ** How the period and the origin grow *)

(** The fields after [j] restarts, in closed form. *)
Lemma iter_restart_closed (s : LearningRateWarmRestarter) (j : nat) :
  let s' := Nat.iter j restart s in
  factor s' = factor s /\
  num_restart_epochs s' = num_restart_epochs s * factor s ^ j /\
  next_restart_epochs s'
  = next_restart_epochs s + num_restart_epochs s * geometric (factor s) j.
Proof.
  cbv zeta. induction j as [| j [IHf [IHp IHo]]].
  - simpl. repeat split; lra.
  - change (Nat.iter (S j) restart s) with (restart (Nat.iter j restart s)).
    unfold restart at 1 3 5. cbn [factor num_restart_epochs next_restart_epochs].
    rewrite IHf, IHp, IHo. cbn [geometric pow]. repeat split; lra.
Qed.

(** A run restarts some number of times, at most once per call. *)
Lemma fit_iter_restart (epochs : list Z) :
  forall w : World,
  exists j : nat,
    (j <= length epochs)%nat /\
    self (fit w epochs) = Nat.iter j restart (self w).
Proof.
  induction epochs as [| e epochs IH]; intros w.
  - exists 0%nat. split; [apply le_n | reflexivity].
  - rewrite fit_cons.
    destruct (IH (fst (on_epoch_begin w e))) as [j [Hj Hs]].
    destruct (on_epoch_begin_self_cases w e) as [E | E]; rewrite E in Hs.
    + exists j. split; [simpl; lia | exact Hs].
    + exists (S j). split; [simpl; lia |].
      rewrite Nat.iter_succ_r. exact Hs.
Qed.




Lemma geometric_one (j : nat) : geometric 1 j = INR j.
Proof.
  induction j as [| j IH].
  - reflexivity.
  - cbn [geometric]. rewrite IH, pow1, S_INR. reflexivity.
Qed.

(** X4.  With [factor = 1] the period never changes, however many restarts
    a run makes, and the origin is always the first origin plus a whole
    number of periods. *)
Theorem unit_factor_keeps_period (w : World) (epochs : list Z) :
  factor (self w) = 1 ->
  num_restart_epochs (self (fit w epochs)) = num_restart_epochs (self w) /\
  exists j : nat,
    (j <= length epochs)%nat /\
    next_restart_epochs (self (fit w epochs))
    = next_restart_epochs (self w) + INR j * num_restart_epochs (self w).
Proof.
  intros Hf.
  destruct (fit_iter_restart epochs w) as [j [Hj Hs]].
  destruct (iter_restart_closed (self w) j) as [_ [Hp Ho]].
  rewrite Hs, Hp, Ho, Hf, pow1, geometric_one. split; [lra |].
  exists j. split; [exact Hj | lra].
Qed.

Lemma unit_factor_keeps_period_witness :
  let w := {| self := mkRestarter 0 0.1 5 1 0;
              optimizer := {| lr := Some 0.01 |} |} in
  num_restart_epochs (self (fit w (epoch_range 12))) = 5 /\
  exists j : nat,
    (j <= length (epoch_range 12))%nat /\
    next_restart_epochs (self (fit w (epoch_range 12))) = 0 + INR j * 5.
Proof.
  intros w.
  apply (unit_factor_keeps_period w (epoch_range 12)). reflexivity.
Defined.

(** ** Epochs that miss the boundary *)

(** A run none of whose epochs hits the boundary leaves the fields alone. *)
Lemma fit_without_hit (epochs : list Z) :
  forall w : World,
    Forall (fun e => IZR e - next_restart_epochs (self w)
                     <> num_restart_epochs (self w)) epochs ->
    self (fit w epochs) = self w.
Proof.
  induction epochs as [| e epochs IH]; intros w Hall.
  - reflexivity.
  - rewrite fit_cons.
    assert (Hstep : self (fst (on_epoch_begin w e)) = self w).
    { destruct (lr (optimizer w)) as [l |] eqn:Hl.
      - rewrite (on_epoch_begin_self w e l Hl).
        rewrite (restart_check_miss _ _ (Forall_inv Hall)). reflexivity.
      - rewrite (on_epoch_begin_no_lr w e Hl). reflexivity. }
    rewrite <- Hstep. apply IH. rewrite Hstep.
    exact (Forall_inv_tail Hall).
Qed.

(** X5.  Once the epoch index is past the boundary
    [next_restart_epochs + num_restart_epochs] without having hit it, no
    later call restarts: a run whose epochs all lie beyond the boundary
    leaves the period and the origin exactly as they were. *)
Theorem missed_boundary_is_never_recovered (w : World) (epochs : list Z) :
  Forall (fun e => next_restart_epochs (self w) + num_restart_epochs (self w)
                   < IZR e) epochs ->
  self (fit w epochs) = self w.
Proof.
  intros Hall. apply fit_without_hit.
  apply Forall_impl with (2 := Hall). intros e He. lra.
Qed.

Lemma missed_boundary_is_never_recovered_witness :
  self (fit example_world [6%Z; 7%Z; 8%Z; 15%Z; 16%Z]) = self example_world.
Proof.
  apply (missed_boundary_is_never_recovered example_world).
  repeat constructor; simpl; lra.
Defined.

(** X6.  The restart test is an exact equality with an integer epoch, so
    when [next_restart_epochs + num_restart_epochs] is not an integer (as
    after a restart with a fractional [factor]) no epoch at all triggers a
    restart: every run leaves the period and the origin as they were. *)
Theorem fractional_boundary_is_never_hit (w : World) (epochs : list Z) :
  (forall z : Z,
      IZR z <> next_restart_epochs (self w) + num_restart_epochs (self w)) ->
  self (fit w epochs) = self w.
Proof.
  intros Hfrac. apply fit_without_hit.
  apply Forall_forall. intros e _ He. apply (Hfrac e). lra.
Qed.

Lemma fractional_boundary_is_never_hit_witness :
  let w := {| self := mkRestarter 0 0.1 7.5 1.5 5;
              optimizer := {| lr := Some 0.01 |} |} in
  self (fit w (epoch_range 40)) = self w.
Proof.
  intros w. apply (fractional_boundary_is_never_hit w (epoch_range 40)).
  intros z Hz. simpl in Hz.
  assert (H2 : IZR (2 * z) = IZR 25) by (rewrite mult_IZR; lra).
  apply eq_IZR in H2. lia.
Defined.

(** ** A training run over consecutive epochs *)

Lemma epoch_range_S (n : nat) :
  epoch_range (S n) = epoch_range n ++ [Z.of_nat n].
Proof.
  unfold epoch_range. rewrite seq_S, map_app. reflexivity.
Qed.

Lemma on_schedule_step (f : Z) (n : nat) (w : World) :
  (1 <= f)%Z ->
  on_schedule f n w ->
  snd (on_epoch_begin w (Z.of_nat n)) = None /\
  on_schedule f (S n) (fst (on_epoch_begin w (Z.of_nat n))).
Proof.
  intros Hf (l & o & q & Hl & Hfac & Ho & Hq & Hpos & Hlo & Hhi).
  destruct (Z.eq_dec (Z.of_nat n - o) q) as [Heq | Hne].
  - (* the boundary: restart *)
    assert (Hc : restart_check (self w) (Z.of_nat n) = (restart (self w), 0)).
    { apply restart_check_hit. rewrite Ho, Hq, <- minus_IZR, Heq. reflexivity. }
    assert (Hq' : num_restart_epochs (restart (self w)) = IZR (q * f)).
    { simpl. rewrite Hq, Hfac, mult_IZR. reflexivity. }
    assert (Hpos' : (0 < q * f)%Z) by nia.
    assert (Hnz : num_restart_epochs (restart (self w)) <> 0).
    { rewrite Hq'. apply not_0_IZR. lia. }
    rewrite (on_epoch_begin_ok w _ l _ _ Hl Hc Hnz). split; [reflexivity |].
    eexists. exists (o + q)%Z, (q * f)%Z. cbn [fst self optimizer lr].
    repeat split.
    + simpl. exact Hfac.
    + simpl. rewrite Ho, Hq, plus_IZR. reflexivity.
    + exact Hq'.
    + exact Hpos'.
    + lia.
    + lia.
  - (* inside the period *)
    assert (Hc : restart_check (self w) (Z.of_nat n)
                 = (self w, IZR (Z.of_nat n) - next_restart_epochs (self w))).
    { apply restart_check_miss. rewrite Ho, Hq, <- minus_IZR.
      intros E. apply eq_IZR in E. contradiction. }
    assert (Hnz : num_restart_epochs (self w) <> 0).
    { rewrite Hq. apply not_0_IZR. lia. }
    rewrite (on_epoch_begin_ok w _ l _ _ Hl Hc Hnz). split; [reflexivity |].
    eexists. exists o, q. cbn [fst self optimizer lr].
    repeat split; try assumption; lia.
Qed.

Lemma on_schedule_run (f : Z) (w0 : World) (n : nat) :
  (1 <= f)%Z ->
  on_schedule f 0 w0 ->
  on_schedule f n (fit w0 (epoch_range n)).
Proof.
  intros Hf H0. induction n as [| n IH].
  - exact H0.
  - rewrite epoch_range_S, fit_app. cbn [fit fold_left].
    apply on_schedule_step; assumption.
Qed.

(** X7.  Construct a restarter with a whole, positive period [p] and a
    whole factor [f >= 1], bind it to an optimizer that has an [lr], and
    call it for the epochs [0, 1, ..., n - 1].  Then the call for epoch [n]
    raises nothing, the epoch has not run past the boundary, and the formula
    is applied to a [t] with [0 <= t < period]: over consecutive epochs no
    restart is ever missed. *)
Theorem consecutive_epochs_never_miss
        (a b : R) (p f : Z) (s : LearningRateWarmRestarter) (l : R) (n : nat) :
  __init__ a b (IZR p) (IZR f) = inr s ->
  (0 < p)%Z ->
  let w := fit {| self := s; optimizer := {| lr := Some l |} |}
               (epoch_range n) in
  let '(s', t) := restart_check (self w) (Z.of_nat n) in
  snd (on_epoch_begin w (Z.of_nat n)) = None /\
  IZR (Z.of_nat n)
  <= next_restart_epochs (self w) + num_restart_epochs (self w) /\
  0 <= t < num_restart_epochs s'.
Proof.
  intros Hi Hp w.
  destruct (init_ok_inv _ _ _ _ _ Hi) as [-> Hf1].
  assert (Hf : (1 <= f)%Z) by (apply le_IZR; exact Hf1).
  assert (Hsched : on_schedule f n w).
  { apply on_schedule_run; [exact Hf |].
    exists l, 0%Z, p. simpl. repeat split; lia. }
  destruct (on_schedule_step f n w Hf Hsched) as [Hok _].
  destruct Hsched as (l' & o & q & Hl & Hfac & Ho & Hq & Hpos & Hlo & Hhi).
  assert (Hbound : IZR (Z.of_nat n)
                   <= next_restart_epochs (self w)
                      + num_restart_epochs (self w)).
  { rewrite Ho, Hq, <- plus_IZR. apply IZR_le. exact Hhi. }
  unfold restart_check.
  destruct (Req_dec_T _ _) as [Hhit | Hmiss].
  - split; [exact Hok | split; [exact Hbound |]].
    simpl. rewrite Hq, Hfac, <- mult_IZR. split; [lra |].
    apply IZR_lt. nia.
  - split; [exact Hok | split; [exact Hbound |]].
    apply IZR_le in Hlo. rewrite Ho, Hq in *. lra.
Qed.

Lemma consecutive_epochs_never_miss_witness :
  let w := fit example_world (epoch_range 15) in
  let '(s', t) := restart_check (self w) (Z.of_nat 15) in
  snd (on_epoch_begin w (Z.of_nat 15)) = None /\
  IZR (Z.of_nat 15)
  <= next_restart_epochs (self w) + num_restart_epochs (self w) /\
  0 <= t < num_restart_epochs s'.
Proof.
  apply (consecutive_epochs_never_miss 0 0.1 5 2 example_self 0.01 15).
  - exact example_self_constructed.
  - lia.
Defined.

(** ** A zero period *)

(** One call on a zero period: [ZeroDivisionError], the period still zero,
    the optimizer untouched. *)
Lemma on_epoch_begin_zero_period (w : World) (epoch : Z) (l : R) :
  lr (optimizer w) = Some l ->
  num_restart_epochs (self w) = 0 ->
  snd (on_epoch_begin w epoch) = Some ZeroDivisionError /\
  optimizer (fst (on_epoch_begin w epoch)) = optimizer w /\
  num_restart_epochs (self (fst (on_epoch_begin w epoch))) = 0.
Proof.
  intros Hl Hz.
  destruct (restart_check (self w) epoch) as [s t] eqn:Hc.
  assert (Hs : num_restart_epochs s = 0).
  { unfold restart_check in Hc. destruct (Req_dec_T _ _); injection Hc as <- <-.
    - simpl. rewrite Hz. lra.
    - exact Hz. }
  rewrite (on_epoch_begin_div0 w epoch l s t Hl Hc Hs). simpl.
  repeat split. exact Hs.
Qed.

(** X12.  A call that passes the attribute check, on a restarter whose
    [factor] is not zero (construction guarantees [factor >= 1]), raises
    [ZeroDivisionError] exactly when the period is zero. *)
Theorem division_error_iff_zero_period (w : World) (epoch : Z) (l : R) :
  lr (optimizer w) = Some l ->
  factor (self w) <> 0 ->
  (snd (on_epoch_begin w epoch) = Some ZeroDivisionError
   <-> num_restart_epochs (self w) = 0).
Proof.
  intros Hl Hf. split.
  - intros He.
    destruct (Req_dec_T (num_restart_epochs (self w)) 0) as [Hz | Hnz];
      [exact Hz | exfalso].
    destruct (restart_check (self w) epoch) as [s t] eqn:Hc.
    assert (Hs : num_restart_epochs s <> 0).
    { unfold restart_check in Hc.
      destruct (Req_dec_T _ _); injection Hc as <- <-.
      - simpl. intros E. apply Rmult_integral in E. destruct E; contradiction.
      - exact Hnz. }
    rewrite (on_epoch_begin_ok w epoch l s t Hl Hc Hs) in He. discriminate He.
  - intros Hz. apply (on_epoch_begin_zero_period w epoch l Hl Hz).
Qed.

Lemma division_error_iff_zero_period_witness :
  let w := {| self := mkRestarter 0 0.1 0 2 0;
              optimizer := {| lr := Some 0.01 |} |} in
  snd (on_epoch_begin w 3) = Some ZeroDivisionError.
Proof.
  intros w.
  apply (division_error_iff_zero_period w 3 0.01).
  - reflexivity.
  - simpl. lra.
  - reflexivity.
Defined.

(** X13.  A zero period is never repaired: whatever epochs are passed,
    every call of the run raises [ZeroDivisionError], the period stays zero
    and the optimizer's learning rate is never written. *)
Theorem zero_period_fails_forever
        (w : World) (epochs : list Z) (epoch : Z) (l : R) :
  lr (optimizer w) = Some l ->
  num_restart_epochs (self w) = 0 ->
  snd (on_epoch_begin (fit w epochs) epoch) = Some ZeroDivisionError /\
  optimizer (fit w epochs) = optimizer w /\
  num_restart_epochs (self (fit w epochs)) = 0.
Proof.
  intros Hl Hz.
  assert (Hrun : optimizer (fit w epochs) = optimizer w /\
                 num_restart_epochs (self (fit w epochs)) = 0).
  { revert w Hl Hz. induction epochs as [| e epochs IH]; intros w Hl Hz.
    - split; [reflexivity | exact Hz].
    - rewrite fit_cons.
      destruct (on_epoch_begin_zero_period w e l Hl Hz) as [_ [Ho Hp]].
      destruct (IH (fst (on_epoch_begin w e))) as [Ho' Hp'].
      + rewrite Ho. exact Hl.
      + exact Hp.
      + split; [rewrite Ho', Ho; reflexivity | exact Hp']. }
  destruct Hrun as [Ho Hp].
  split; [| split; assumption].
  apply (on_epoch_begin_zero_period (fit w epochs) epoch l).
  - rewrite Ho. exact Hl.
  - exact Hp.
Qed.

Lemma zero_period_fails_forever_witness :
  let w := {| self := mkRestarter 0 0.1 0 2 0;
              optimizer := {| lr := Some 0.01 |} |} in
  snd (on_epoch_begin (fit w (epoch_range 4)) 4) = Some ZeroDivisionError /\
  optimizer (fit w (epoch_range 4)) = optimizer w /\
  num_restart_epochs (self (fit w (epoch_range 4))) = 0.
Proof.
  intros w. apply (zero_period_fails_forever w (epoch_range 4) 4 0.01).
  - reflexivity.
  - reflexivity.
Defined.
